(** * Verification of the MSL Mastcam PDS4 EDR batch processor

    A shallow embedding of [process_mastcam_pds.py] and the properties its
    design document states about it.

    Conventions of the embedding.
    - A Python call either returns a value or raises; [outcome] records
      which, and [M] threads the file system and the printed lines.
    - [str] is a Rocq [string]; the methods used by the program
      ([lower], the whitespace stripping of [int]) act on the ASCII range.
    - A [uint8] sample is a [Z] in [0, 255]; a frame is a list of rows.
    - NumPy's [float32] and [float64] arithmetic sits behind the interface
      [Num]. It has two instances: exact rationals, over which the
      algebraic statements are proved, and IEEE-754 binary floating point
      (round to nearest even), on which concrete runs are replayed.
    - [cv2.cvtColor] and the PNG encoder behind [cv2.imwrite] belong to
      OpenCV, not to this program: they are section variables. *)

From Stdlib Require Import ZArith QArith Qround Qabs Lia Lqa List Ascii String.
From Stdlib Require Import Floats.SpecFloat.
From stdpp Require Import base option list gmap strings sorting.

Open Scope Z_scope.

(* ===================================================================== *)
(** * Python run-time: exceptions and outcomes *)
(* ===================================================================== *)

(** The exceptions the program can meet.  [IOError] is the one raised by
    [read_raw_img]; its four fields are the four values interpolated in
    its message. *)
Inductive exn : Type :=
| ValueError (msg : string)
| TypeError (msg : string)
| IOError (expected_bytes actual_bytes : Z) (path : string) (offset : Z)
| OSError (msg : string)
| FileNotFoundError (path : string)
| FileExistsError (path : string)
| ParseError (path : string)
| CvError (msg : string).

Inductive outcome (A : Type) : Type :=
| Returned (a : A)
| Raised (e : exn).
Arguments Returned {A} a.
Arguments Raised {A} e.


(* ===================================================================== *)
(** * Python strings *)
(* ===================================================================== *)

Definition code (c : ascii) : Z := Z.of_N (N_of_ascii c).

(** [str.lower] on one character of the ASCII range. *)
Definition lower_char (c : ascii) : ascii :=
  if (65 <=? code c) && (code c <=? 90)
  then ascii_of_N (Z.to_N (code c + 32))
  else c.

Fixpoint lower (s : string) : string :=
  match s with
  | EmptyString => EmptyString
  | String c s' => String (lower_char c) (lower s')
  end.

(** Truthiness of a [str]. *)
Definition truthy (s : string) : bool :=
  match s with EmptyString => false | String _ _ => true end.

(** [a or b] where [a] and [b] are [str] or [None]. *)
Definition py_or (a b : option string) : option string :=
  match a with
  | Some s => if truthy s then a else b
  | None => b
  end.

(** Whitespace as [int] strips it: TAB..CR, FS..US and the space. *)
Definition is_space (c : ascii) : bool :=
  ((9 <=? code c) && (code c <=? 13)) || ((28 <=? code c) && (code c <=? 32)).

Definition is_digit (c : ascii) : bool := (48 <=? code c) && (code c <=? 57).

Fixpoint lstrip (s : list ascii) : list ascii :=
  match s with
  | c :: s' => if is_space c then lstrip s' else s
  | [] => []
  end.

Definition strip (s : list ascii) : list ascii := rev (lstrip (rev (lstrip s))).

(** Digits of a decimal literal; a single underscore may sit between two
    digits.  [acc] is the value read so far, [prev_digit] tells whether
    the previous character was a digit. *)
Fixpoint digits (acc : Z) (prev_digit : bool) (s : list ascii) : option Z :=
  match s with
  | [] => if prev_digit then Some acc else None
  | c :: s' =>
      if is_digit c then digits (10 * acc + (code c - 48)) true s'
      else if (code c =? 95) && prev_digit then digits acc false s'
      else None
  end.

(** [int(s)] for a [str] argument: [None] stands for
    [ValueError: invalid literal for int() with base 10]. *)
Definition int_of_str (s : string) : option Z :=
  match strip (list_ascii_of_string s) with
  | [] => None
  | c :: s' =>
      if code c =? 45 then Z.opp <$> digits 0 false s'
      else if code c =? 43 then digits 0 false s'
      else digits 0 false (c :: s')
  end.

(** [int(x)] where [x] is a [str] or [None]. *)
Definition py_int (x : option string) : outcome Z :=
  match x with
  | None => Raised (TypeError "int() argument must be a string, a bytes-like object or a real number, not 'NoneType'")
  | Some s =>
      match int_of_str s with
      | Some z => Returned z
      | None => Raised (ValueError "invalid literal for int() with base 10")
      end
  end.

(* ===================================================================== *)
(** * [os.path] (POSIX flavour) *)
(* ===================================================================== *)

Definition sep : ascii := "/"%char.
Definition extsep : ascii := "."%char.

Definition is_char (c d : ascii) : bool := code c =? code d.

(** [s.rfind(c)] for a one-character needle: the last index, or [-1]. *)
Fixpoint rfind_from (c : ascii) (i : Z) (found : Z) (s : list ascii) : Z :=
  match s with
  | [] => found
  | d :: s' => rfind_from c (i + 1) (if is_char d c then i else found) s'
  end.

Definition rfind (c : ascii) (s : list ascii) : Z := rfind_from c 0 (-1) s.

(** [s.rstrip(c)]. *)
Fixpoint lstrip_char (c : ascii) (s : list ascii) : list ascii :=
  match s with
  | d :: s' => if is_char d c then lstrip_char c s' else s
  | [] => []
  end.

Definition rstrip_char (c : ascii) (s : list ascii) : list ascii :=
  rev (lstrip_char c (rev s)).

Definition slice_to (i : Z) (s : list ascii) : list ascii := take (Z.to_nat i) s.
Definition slice_from (i : Z) (s : list ascii) : list ascii := drop (Z.to_nat i) s.

Definition os_path_dirname (p : string) : string :=
  let l := list_ascii_of_string p in
  let i := rfind sep l + 1 in
  let head := slice_to i l in
  string_of_list_ascii
    (if negb (forallb (fun d => is_char d sep) head) then rstrip_char sep head
     else head).

Definition os_path_basename (p : string) : string :=
  let l := list_ascii_of_string p in
  string_of_list_ascii (slice_from (rfind sep l + 1) l).

Definition startswith_sep (b : string) : bool :=
  match b with String c _ => is_char c sep | EmptyString => false end.

Definition endswith_sep (a : string) : bool :=
  match rev (list_ascii_of_string a) with c :: _ => is_char c sep | [] => false end.

(** [os.path.join(a, b)]. *)
Definition os_path_join (a b : string) : string :=
  if startswith_sep b then b
  else if negb (truthy a) || endswith_sep a then (a ++ b)%string
  else (a ++ "/" ++ b)%string.

(** The loop of [genericpath._splitext] that skips leading dots: is there
    a character other than a dot in [p[k:dotIndex]]? *)
Definition has_stem (l : list ascii) (k dotIndex : Z) : bool :=
  existsb (fun d => negb (is_char d extsep))
          (take (Z.to_nat (dotIndex - k)) (slice_from k l)).

Definition os_path_splitext (p : string) : string * string :=
  let l := list_ascii_of_string p in
  let sepIndex := rfind sep l in
  let dotIndex := rfind extsep l in
  if (sepIndex <? dotIndex) && has_stem l (sepIndex + 1) dotIndex
  then (string_of_list_ascii (slice_to dotIndex l),
        string_of_list_ascii (slice_from dotIndex l))
  else (p, EmptyString).

(* ===================================================================== *)
(** * [xml.etree.ElementTree] *)
(* ===================================================================== *)

(** An element as ElementTree holds it: the tag in Clark notation
    ([{uri}local], or just [local] when the name has no namespace), the
    text before the first child, the tail after the end tag, the
    children in document order.  Attributes play no part in the label
    reader and are left out. *)
#[warnings="-register-all"] Inductive Element : Type :=
| Elem (tag : string) (text : option string) (tail : option string)
       (children : list Element).

Definition tag_of (e : Element) : string := let 'Elem t _ _ _ := e in t.
Definition text_of (e : Element) : option string := let 'Elem _ t _ _ := e in t.
Definition tail_of (e : Element) : option string := let 'Elem _ _ t _ := e in t.
Definition children_of (e : Element) : list Element := let 'Elem _ _ _ c := e in c.

Definition opt_text (t : option string) : string :=
  match t with Some s => s | None => EmptyString end.

(** [list(e.iter())]: the element and all its descendants, in
    document order. *)
Fixpoint iter (e : Element) : list Element :=
  let 'Elem _ _ _ cs := e in
  e :: (fix iter_all (l : list Element) : list Element :=
          match l with
          | [] => []
          | c :: l' => iter c ++ iter_all l'
          end) cs.

(** The step [//]: every element below [e], at any depth, [e] excluded. *)
Definition descendants (e : Element) : list Element := tail (iter e).

(** ["".join(e.itertext())]. *)
Fixpoint itertext (e : Element) : string :=
  let 'Elem _ t _ cs := e in
  (opt_text t ++
   (fix texts (l : list Element) : string :=
      match l with
      | [] => EmptyString
      | c :: l' => itertext c ++ opt_text (tail_of c) ++ texts l'
      end) cs)%string.

Definition has_tag (t : string) (e : Element) : bool := String.eqb (tag_of e) t.

(** Clark notation of [prefix:local] once the prefix is resolved. *)
Definition qname (uri local : string) : string := ("{" ++ uri ++ "}" ++ local)%string.

Definition ns_pds : string := "http://pds.nasa.gov/pds4/pds/v1".
Definition ns_img : string := "http://pds.nasa.gov/pds4/img/v1".
Definition pds (local : string) : string := qname ns_pds local.

(** [e.iterfind(".//tag")]. *)
Definition iterfind_desc (t : string) (e : Element) : list Element :=
  filter (fun d => has_tag t d = true) (descendants e).

(** [e.find(".//tag")]. *)
Definition find_desc (t : string) (e : Element) : option Element :=
  head (iterfind_desc t e).

(** What [findtext] makes of the first match: its text, [""] for an
    element without text, [None] when nothing matched. *)
Definition text_of_first (l : list Element) : option string :=
  (fun e => opt_text (text_of e)) <$> head l.

(** [e.findtext(".//tag")]. *)
Definition findtext_desc (t : string) (e : Element) : option string :=
  text_of_first (iterfind_desc t e).

(** The predicate [[child='value']]: some child named [child] has
    [value] as its whole text content. *)
Definition child_text_is (child value : string) (e : Element) : bool :=
  existsb (fun c => has_tag child c && String.eqb (itertext c) value)
          (children_of e).

(** [e.findtext(".//axis[name='value']/leaf")]: descendants [axis] that
    pass the predicate, then their children [leaf]. *)
Definition iterfind_axis (axis name value leaf : string) (e : Element) : list Element :=
  a ← filter (fun d => child_text_is name value d = true) (iterfind_desc axis e);
  filter (fun c => has_tag leaf c = true) (children_of a).

Definition findtext_axis (axis name value leaf : string) (e : Element) : option string :=
  text_of_first (iterfind_axis axis name value leaf e).

(* ===================================================================== *)
(** * The world: files, directories, printed lines *)
(* ===================================================================== *)

(** A file is its bytes, together with what [ET.parse] makes of them:
    the root element when the bytes are a well-formed XML document. *)
Record file : Type := File { f_bytes : list Z; f_xml : option Element }.

(** The lines the program prints, one constructor per [print] call. *)
Inductive line : Type :=
| line_xml_parsed (offset samples lines : Z)
| line_img_not_found (img_path : string)
| line_processing (file_name : string)
| line_offset (offset : Z)
| line_size (samples lines : Z)
| line_bayer (pattern : string)
| line_saved (out_path : string)
| line_label (i total : Z) (name : string)
| line_error (e : exn)
| line_blank.

(** The lines that carry the warning sign. *)
Definition is_warning (l : line) : bool :=
  match l with line_img_not_found _ => true | _ => false end.

Record world : Type :=
  World { files : gmap string file; dirs : gset string; stdout : list line }.

(** A Python computation: it may read and change the world, and it
    returns or raises. *)
Definition M (A : Type) : Type := world -> outcome A * world.

Definition ret {A} (a : A) : M A := fun w => (Returned a, w).
Definition raise {A} (e : exn) : M A := fun w => (Raised e, w).
Definition bind {A B} (m : M A) (k : A -> M B) : M B :=
  fun w => match m w with
           | (Returned a, w') => k a w'
           | (Raised e, w') => (Raised e, w')
           end.
Definition lift {A} (o : outcome A) : M A := fun w => (o, w).

Notation "'let!' x ':=' m 'in' k" := (bind m (fun x => k))
  (at level 10, x name, m at level 100, k at level 200).
Notation "'do!' m 'in' k" := (bind m (fun _ => k))
  (at level 10, m at level 100, k at level 200).

Definition print (l : line) : M unit :=
  fun w => (Returned tt, World (files w) (dirs w) (stdout w ++ [l])).


(** A path is a file when it is a key of [files]. *)
Definition os_path_isfile (p : string) : M bool :=
  fun w => (Returned (bool_decide (is_Some (files w !! p))), w).

(** [ET.parse(path).getroot()]. *)
Definition ET_parse_getroot (p : string) : M Element :=
  fun w => match files w !! p with
           | None => (Raised (FileNotFoundError p), w)
           | Some f => match f_xml f with
                       | Some root => (Returned root, w)
                       | None => (Raised (ParseError p), w)
                       end
           end.

(** [os.makedirs(d, exist_ok=True)].  Directories are a set of paths;
    the creation of missing parents is not tracked. *)
Definition os_makedirs (d : string) : M unit :=
  fun w => if bool_decide (is_Some (files w !! d))
           then (Raised (FileExistsError d), w)
           else (Returned tt, World (files w) ({[d]} ∪ dirs w) (stdout w)).

Definition write_file (p : string) (f : file) : M unit :=
  fun w => (Returned tt, World (<[p := f]> (files w)) (dirs w) (stdout w)).

(* ===================================================================== *)
(** * PDS4 label reader *)
(* ===================================================================== *)

(** The dictionary [info]. *)
Record info : Type := Info {
  file_name : option string;
  offset : Z;
  lines : Z;
  samples : Z;
  bits : Z;
  bayer : string;
  lut : option unit
}.

(** The image array and the three geometry fields as the reader locates
    them: the namespaced path first, the bare path when that gives
    nothing ([None], or an empty text for the fields). *)
Definition array_of (root : Element) : option Element :=
  match find_desc (pds "Array_2D_Image") root with
  | Some a => Some a
  | None => find_desc "Array_2D_Image" root
  end.

Definition offset_text (arr : Element) : option string :=
  py_or (findtext_desc (pds "offset") arr) (findtext_desc "offset" arr).

Definition axis_text (value : string) (arr : Element) : option string :=
  py_or (findtext_axis (pds "Axis_Array") (pds "axis_name") value (pds "elements") arr)
        (findtext_axis "Axis_Array" "axis_name" value "elements" arr).



(** The body of [parse_pds4_label] once the document is parsed. *)
Definition parse_root (xml_path : string) (root : Element) : outcome info :=
  let file_name := findtext_desc (pds "file_name") root in
  match array_of root with
  | None => Raised (ValueError ("No Array_2D_Image element found in " ++ xml_path))
  | Some arr =>
      match py_int (offset_text arr) with
      | Raised e => Raised e
      | Returned offset =>
      match py_int (axis_text "Line" arr) with
      | Raised e => Raised e
      | Returned lines =>
      match py_int (axis_text "Sample" arr) with
      | Raised e => Raised e
      | Returned samples =>
          Returned (Info file_name offset lines samples 8 "grbg" None)
      end end end
  end.

Definition parse_pds4_label (xml_path : string) : M info :=
  let! root := ET_parse_getroot xml_path in
  let! i := lift (parse_root xml_path root) in
  do! print (line_xml_parsed (offset i) (samples i) (lines i)) in
  ret i.

(* ===================================================================== *)
(** * Raw frame extractor *)
(* ===================================================================== *)

(** A single-channel frame: the rows, top to bottom. *)
Definition frame : Type := list (list Z).

(** Rows of [cols] elements cut from a buffer, [rows] of them. *)
Fixpoint chunks (rows cols : nat) (buf : list Z) : frame :=
  match rows with
  | O => []
  | S r => take cols buf :: chunks r cols (drop cols buf)
  end.

(** [np.frombuffer(raw, dtype=np.uint8).reshape((lines, samples))].  One
    of the two dimensions may be [-1], which NumPy infers from the size;
    every other mismatch raises. *)
Definition reshape (raw : list Z) (lines samples : Z) : outcome frame :=
  let n := Z.of_nat (length raw) in
  if (0 <=? lines) && (0 <=? samples) then
    if lines * samples =? n
    then Returned (chunks (Z.to_nat lines) (Z.to_nat samples) raw)
    else Raised (ValueError "cannot reshape array")
  else if (lines =? -1) && (0 <? samples) && (n mod samples =? 0)
  then Returned (chunks (Z.to_nat (n / samples)) (Z.to_nat samples) raw)
  else if (samples =? -1) && (0 <? lines) && (n mod lines =? 0)
  then Returned (chunks (Z.to_nat lines) (Z.to_nat (n / lines)) raw)
  else Raised (ValueError "cannot reshape array").

(** [f.seek(offset); f.read(n)] on the bytes of a file opened in binary
    mode.  A negative [offset] is refused by [seek]; [read(-1)] reads to
    the end, any other negative length is refused. *)
Definition seek_read (bytes : list Z) (offset n : Z) : outcome (list Z) :=
  if offset <? 0 then Raised (OSError "Invalid argument")
  else if n <? -1 then Raised (ValueError "read length must be non-negative or -1")
  else if n =? -1 then Returned (drop (Z.to_nat offset) bytes)
  else Returned (take (Z.to_nat n) (drop (Z.to_nat offset) bytes)).

Definition read_raw_img (path : string) (offset samples lines : Z) : M frame :=
  let expected_bytes := samples * lines in
  fun w =>
    match files w !! path with
    | None => (Raised (FileNotFoundError path), w)
    | Some f =>
        match seek_read (f_bytes f) offset expected_bytes with
        | Raised e => (Raised e, w)
        | Returned raw =>
            if Z.of_nat (length raw) <? expected_bytes
            then (Raised (IOError expected_bytes (Z.of_nat (length raw)) path offset), w)
            else (reshape raw lines samples, w)
        end
    end.

(* ===================================================================== *)
(** * Floating-point arithmetic behind an interface *)
(* ===================================================================== *)

(** The operations NumPy performs on [float32] and [float64] values in
    this program. *)
Class Num (F : Type) : Type := {
  of_int : Z -> F;        (* conversion of an integer sample or count *)
  lit : Q -> F;           (* a decimal literal of the source text *)
  add : F -> F -> F;
  sub : F -> F -> F;
  mul : F -> F -> F;
  div : F -> F -> F;
  leb : F -> F -> bool;   (* x <= y *)
  ltb : F -> F -> bool;   (* x < y *)
  eqb : F -> F -> bool;   (* x == y *)
  floor : F -> Z;         (* np.floor, as an index *)
  trunc : F -> Z          (* the integer part, as astype(np.uint8) takes it *)
}.

(** ** Exact rationals *)

Definition Qtrunc (x : Q) : Z := if Qle_bool 0 x then Qfloor x else Qceiling x.

#[export] Instance Q_Num : Num Q := {
  of_int := inject_Z;
  lit := fun q => q;
  add := Qplus;
  sub := Qminus;
  mul := Qmult;
  div := Qdiv;
  leb := Qle_bool;
  ltb := fun x y => negb (Qle_bool y x);
  eqb := Qeq_bool;
  floor := Qfloor;
  trunc := Qtrunc
}.

(** ** IEEE-754 binary formats, round to nearest even *)

Section IEEE.
Variables prec emax : Z.

Definition ieee_of_int (z : Z) : spec_float := binary_normalize prec emax z 0 false.

(** A literal is read by Python as a [binary64] and then rounded to the
    format of the array it meets. *)
Definition ieee_lit (q : Q) : spec_float :=
  match SFdiv 53 1024 (binary_normalize 53 1024 (Qnum q) 0 false)
                      (binary_normalize 53 1024 (Zpos (Qden q)) 0 false) with
  | S754_finite s m e => binary_round prec emax s m e
  | x => x
  end.

(** The integer below (or at) a finite value; [0] for the others. *)
Definition ieee_floor (x : spec_float) : Z :=
  match x with
  | S754_finite s m e =>
      let v := if s then Z.neg m else Z.pos m in
      if 0 <=? e then v * 2 ^ e else v / 2 ^ (- e)
  | _ => 0
  end.

(** The integer part; an infinity saturates, as it only reaches the
    conversion after clipping. *)
Definition ieee_trunc (x : spec_float) : Z :=
  match x with
  | S754_finite s m e =>
      let a := if 0 <=? e then Z.pos m * 2 ^ e else Z.pos m / 2 ^ (- e) in
      if s then - a else a
  | S754_infinity false => 255
  | _ => 0
  end.

Definition IEEE_Num : Num spec_float := {|
  of_int := ieee_of_int;
  lit := ieee_lit;
  add := SFadd prec emax;
  sub := SFsub prec emax;
  mul := SFmul prec emax;
  div := SFdiv prec emax;
  leb := SFleb;
  ltb := SFltb;
  eqb := SFeqb;
  floor := ieee_floor;
  trunc := ieee_trunc
|}.
End IEEE.

Definition binary32 : Num spec_float := IEEE_Num 24 128.
Definition binary64 : Num spec_float := IEEE_Num 53 1024.

(* ===================================================================== *)
(** * Images *)
(* ===================================================================== *)

(** A pixel in OpenCV's channel order: index 0 is blue, 1 green, 2 red. *)
Record pixel (A : Type) : Type := Px { blue : A; green : A; red : A }.
Arguments Px {A} blue green red.
Arguments blue {A} p.
Arguments green {A} p.
Arguments red {A} p.

Inductive channel : Type := ch0 | ch1 | ch2.

#[export] Instance channel_eq_dec : EqDecision channel.
Proof. solve_decision. Defined.

Definition get {A} (c : channel) (p : pixel A) : A :=
  match c with ch0 => blue p | ch1 => green p | ch2 => red p end.

Definition upd {A} (c : channel) (f : A -> A) (p : pixel A) : pixel A :=
  match c with
  | ch0 => Px (f (blue p)) (green p) (red p)
  | ch1 => Px (blue p) (f (green p)) (red p)
  | ch2 => Px (blue p) (green p) (f (red p))
  end.

Definition pmap {A B} (f : A -> B) (p : pixel A) : pixel B :=
  Px (f (blue p)) (f (green p)) (f (red p)).

(** An array of shape (H, W, 3): H rows of W pixels. *)
Definition image (A : Type) : Type := list (list (pixel A)).

(** [f(img)] applied sample by sample. *)
Definition imap {A B} (f : A -> B) (img : image A) : image B :=
  map (map (pmap f)) img.

(** [img[:, :, c]], flattened in row-major order. *)
Definition plane {A} (c : channel) (img : image A) : list A :=
  get c <$> concat img.

(** [img[:, :, c] = f(img[:, :, c])], in place. *)
Definition on_plane {A} (c : channel) (f : A -> A) (img : image A) : image A :=
  map (map (upd c f)) img.

(** [img.ravel()]: every sample, pixel after pixel, channel 0 first. *)
Definition ravel {A} (img : image A) : list A :=
  p ← concat img; [blue p; green p; red p].

(** The shape of a frame or of an image: the number of rows and the
    length of each row. *)
Definition shape {A} (g : list (list A)) : nat * list nat :=
  (length g, length <$> g).

(** A [uint8] sample. *)
Definition u8 (z : Z) : Prop := 0 ≤ z ≤ 255.

(* ===================================================================== *)
(** * Colour pipeline *)
(* ===================================================================== *)

Section Stages.
Context {F : Type} {N : Num F}.

Definition fmax (x y : F) : F := if ltb x y then y else x.
Definition fmin (x y : F) : F := if ltb y x then y else x.

(** [np.clip(x, 0, 255)]. *)
Definition clip (x : F) : F := fmin (fmax x (of_int 0)) (of_int 255).

(** [x.astype(np.uint8)]: the integer part; a value outside [0, 255]
    would wrap, none is left after [clip]. *)
Definition astype_uint8 (x : F) : Z := trunc x mod 256.

(** [np.clip(img, 0, 255).astype(np.uint8)]. *)
Definition clip_uint8 (img : image F) : image Z := imap (fun x => astype_uint8 (clip x)) img.

(** [np.mean] of a flattened plane: the sum, accumulated in the format of
    the array, over the count.  NumPy adds pairwise where this sum runs
    left to right; the two agree in exact arithmetic and wherever the
    partial sums are exact. *)
Definition fsum (l : list F) : F := foldl add (of_int 0) l.
Definition mean (l : list F) : F := div (fsum l) (of_int (Z.of_nat (length l))).

(** The two in-place rescalings of [white_balance], before the final
    clipping. *)
Definition white_balance_scaled (img : image Z) : image F :=
  let img := imap of_int img in
  let mean_r := mean (plane ch2 img) in
  let mean_g := mean (plane ch1 img) in
  let mean_b := mean (plane ch0 img) in
  let img := if ltb (of_int 0) mean_r
             then on_plane ch2 (fun x => mul x (div mean_g mean_r)) img else img in
  let img := if ltb (of_int 0) mean_b
             then on_plane ch0 (fun x => mul x (div mean_g mean_b)) img else img in
  img.

Definition white_balance (img : image Z) : image Z :=
  clip_uint8 (white_balance_scaled img).

(** The three in-place rescalings of [color_correct], before the final
    clipping. *)
Definition color_correct_scaled (img : image Z) : image F :=
  let img := imap of_int img in
  let img := on_plane ch2 (fun x => mul x (lit (110 # 100))) img in
  let img := on_plane ch1 (fun x => mul x (lit (100 # 100))) img in
  let img := on_plane ch0 (fun x => mul x (lit (85 # 100))) img in
  img.

Definition color_correct (img : image Z) : image Z :=
  clip_uint8 (color_correct_scaled img).

(** NumPy's [_lerp]. *)
Definition lerp (a b t : F) : F :=
  let diff_b_a := sub b a in
  if leb (lit (5 # 10)) t
  then sub b (mul diff_b_a (sub (of_int 1) t))
  else add a (mul diff_b_a t).

(** [np.percentile(a, q)] with the default linear method, on the
    sorted samples: the virtual index [(n - 1) * q / 100], its two
    neighbours, and the interpolation between them.  An index at or
    past the last one selects the last sample on both sides.  The
    percentile of no sample at all is [0/0]. *)
Definition percentile_sorted (a : list Z) (q : Q) : F :=
  let n := Z.of_nat (length a) in
  if n =? 0 then div (of_int 0) (of_int 0) else
  let virtual_index := mul (of_int (n - 1)) (div (lit q) (of_int 100)) in
  let above := leb (of_int (n - 1)) virtual_index in
  let below := ltb virtual_index (of_int 0) in
  let previous := if above then -1 else if below then 0 else floor virtual_index in
  let next := if above then -1 else if below then 0 else floor virtual_index + 1 in
  let at_index i := a !!! Z.to_nat (if i <? 0 then n + i else i) in
  let gamma := sub virtual_index (of_int previous) in
  lerp (of_int (at_index previous)) (of_int (at_index next)) gamma.

Definition percentile (img : image Z) (q : Q) : F :=
  percentile_sorted (merge_sort Z.le (ravel img)) q.

(** One sample of the stretched image. *)
Definition remap (imin imax : F) (x : Z) : Z :=
  astype_uint8
    (clip (div (mul (sub (of_int x) imin) (lit (255 # 1))) (sub imax imin))).

Definition stretch_contrast (img : image Z) : image Z :=
  let imin := percentile img (5 # 10) in
  let imax := percentile img (995 # 10) in
  if eqb (sub imax imin) (of_int 0) then img
  else imap (remap imin imax) img.

End Stages.

(** ** Notions used to state the exact-arithmetic results *)



(** The two percentiles of [stretch_contrast], in exact arithmetic. *)
Definition low (img : image Z) : Q := percentile (N := Q_Num) img (5 # 10).
Definition high (img : image Z) : Q := percentile (N := Q_Num) img (995 # 10).

(* ===================================================================== *)
(** * Demosaic engine *)
(* ===================================================================== *)

(** The four OpenCV conversion codes the program names, and their values
    in OpenCV's [ColorConversionCodes]. *)
Inductive ColorConversionCode : Type :=
| COLOR_BayerBG2BGR_VNG
| COLOR_BayerGB2BGR_VNG
| COLOR_BayerRG2BGR_VNG
| COLOR_BayerGR2BGR_VNG.

#[export] Instance ColorConversionCode_eq_dec : EqDecision ColorConversionCode.
Proof. solve_decision. Defined.

Definition code_value (c : ColorConversionCode) : Z :=
  match c with
  | COLOR_BayerBG2BGR_VNG => 62
  | COLOR_BayerGB2BGR_VNG => 63
  | COLOR_BayerRG2BGR_VNG => 64
  | COLOR_BayerGR2BGR_VNG => 65
  end.

(** The dictionary [patterns] of [debayer], built in the order of the
    dictionary display. *)
Definition patterns : gmap string ColorConversionCode :=
  <["bggr" := COLOR_BayerRG2BGR_VNG]>
  (<["gbrg" := COLOR_BayerGR2BGR_VNG]>
  (<["grbg" := COLOR_BayerGB2BGR_VNG]>
  (<["rggb" := COLOR_BayerBG2BGR_VNG]> ∅))).

(** [patterns.get(pattern.lower(), cv2.COLOR_BayerGB2BGR_VNG)]. *)
Definition select_code (pattern : string) : ColorConversionCode :=
  default COLOR_BayerGB2BGR_VNG (patterns !! lower pattern).

(** The canonical tokens, as instrument documentation writes them and as
    the keys of [patterns] spell them. *)
Definition canonical_tokens : list string := ["RGGB"; "GRBG"; "GBRG"; "BGGR"].
Definition canonical : list string := ["rggb"; "grbg"; "gbrg"; "bggr"].

(** ** The two naming conventions *)

Inductive colour : Type := Red | Green | Blue.

Definition colour_of_letter (c : ascii) : option colour :=
  if code c =? 82 then Some Red
  else if code c =? 71 then Some Green
  else if code c =? 66 then Some Blue
  else None.

(** Real-world convention: the four letters of the token are the filters
    at (0,0), (0,1), (1,0), (1,1), and the cell repeats with period 2. *)
Definition cfa_top_left (token : string) (row col : Z) : option colour :=
  c ← list_ascii_of_string token !! Z.to_nat (2 * (row mod 2) + col mod 2);
  colour_of_letter c.

(** OpenCV's convention, as the docstring of [debayer] records it: the
    two letters of the code name are the filters met on the second row
    from the second column on, that is at (1,1) and (1,2). *)
Definition opencv_letters (c : ColorConversionCode) : colour * colour :=
  match c with
  | COLOR_BayerBG2BGR_VNG => (Blue, Green)
  | COLOR_BayerGB2BGR_VNG => (Green, Blue)
  | COLOR_BayerRG2BGR_VNG => (Red, Green)
  | COLOR_BayerGR2BGR_VNG => (Green, Red)
  end.

Definition opposite (c : colour) : colour :=
  match c with Red => Blue | Blue => Red | Green => Green end.

(** The filter at (row, col) of the mosaic a code name denotes.  In a
    Bayer mosaic the greens sit on one diagonal of the cell and red and
    blue on the other. *)
Definition cfa_opencv (c : ColorConversionCode) (row col : Z) : colour :=
  let '(x, y) := opencv_letters c in
  (* coordinates in the cell whose corner is (1,1) *)
  let r := (row + 1) mod 2 in
  let k := (col + 1) mod 2 in
  if (r =? 0) && (k =? 0) then x
  else if (r =? 0) && (k =? 1) then y
  else if (r =? 1) && (k =? 0) then
         match x with Green => opposite y | _ => Green end
  else match x with Green => Green | _ => opposite x end.

(* ===================================================================== *)
(** * The pipeline for one image, and the batch loop *)
(* ===================================================================== *)

Section Pipeline.
(** [cv2.cvtColor] restricted to the codes above, and the encoder
    behind [cv2.imwrite]. *)
Variable cvtColor : frame -> ColorConversionCode -> outcome (image Z).
Variable imencode : image Z -> list Z.

(** The arithmetic of [float32] and of [float64]. *)
Context {F32 F64 : Type} (N32 : Num F32) (N64 : Num F64).

Definition debayer (bayer_img : frame) (pattern : string) : M (image Z) :=
  let code := select_code pattern in
  lift (cvtColor bayer_img code).

Definition cv2_imwrite (out_path : string) (img : image Z) : M unit :=
  write_file out_path (File (imencode img) None).

(** [os.path.join(a, b)] where [b] may be [None]. *)
Definition join_opt (a : string) (b : option string) : M string :=
  match b with
  | Some b => ret (os_path_join a b)
  | None => raise (TypeError "expected str, bytes or os.PathLike object, not NoneType")
  end.

Definition truthy_opt (s : option string) : bool :=
  match s with Some s => truthy s | None => false end.

Definition process_pds_image (xml_path : string) (output_dir : option string)
           (bayer_override : option string) : M (option string) :=
  let! info := parse_pds4_label xml_path in
  let! img_path := join_opt (os_path_dirname xml_path) (file_name info) in
  let! found := os_path_isfile img_path in
  if negb found then
    do! print (line_img_not_found img_path) in
    ret None
  else
    let pattern := if truthy_opt bayer_override
                   then opt_text bayer_override else bayer info in
    do! print (line_processing (opt_text (file_name info))) in
    do! print (line_offset (offset info)) in
    do! print (line_size (samples info) (lines info)) in
    do! print (line_bayer pattern) in
    let! bayer_img := read_raw_img img_path (offset info) (samples info) (lines info) in
    let! rgb := debayer bayer_img pattern in
    let rgb := white_balance (N := N32) rgb in
    let rgb := color_correct (N := N32) rgb in
    let rgb := stretch_contrast (N := N64) rgb in
    let dest_dir :=
      if truthy_opt output_dir then opt_text output_dir
      else
        let source_dir := if truthy (os_path_dirname xml_path)
                          then os_path_dirname xml_path else "." in
        os_path_join source_dir "output_png" in
    do! os_makedirs dest_dir in
    let base_name := (fst (os_path_splitext (os_path_basename img_path)) ++ "_RGB.png")%string in
    let out_path := os_path_join dest_dir base_name in
    do! cv2_imwrite out_path rgb in
    do! print (line_saved out_path) in
    ret (Some out_path).


End Pipeline.

(* ===================================================================== *)
(** * Reasoning about runs *)
(* ===================================================================== *)

(** Computations that leave the files alone. *)
Definition keeps_files {A} (m : M A) : Prop :=
  ∀ w r w', m w = (r, w') → files w' = files w.



(* ===================================================================== *)
(** * Sample data *)
(* ===================================================================== *)

(** A label in the shape of a Mastcam EDR label. *)
Definition axis_array (name count : string) : Element :=
  Elem (pds "Axis_Array") None None
    [Elem (pds "axis_name") (Some name) None [];
     Elem (pds "elements") (Some count) None []].

Definition array_2d (offset lines samples : string) : Element :=
  Elem (pds "Array_2D_Image") None None
    [Elem (pds "offset") (Some offset) None [];
     Elem (pds "axes") (Some "2") None [];
     axis_array "Line" lines;
     axis_array "Sample" samples].

Definition file_area (content : list Element) : Element :=
  Elem (pds "Product_Observational") None None
    [Elem (pds "File_Area_Observational") None None content].

Definition file_ref (name : string) : Element :=
  Elem (pds "File") None None [Elem (pds "file_name") (Some name) None []].

Definition sample_label (name offset lines samples : string) : Element :=
  file_area [file_ref name; array_2d offset lines samples].

(** A label file is given by its parsed root, its bytes play no part here
    and are left out; a raw file is given by its bytes and is not XML. *)
Definition label_file (root : Element) : file := File [] (Some root).
Definition raw_file (bytes : list Z) : file := File bytes None.

Definition world_of (fs : list (string * file)) : world :=
  World (list_to_map fs) ∅ [].

(** Stand-ins for OpenCV: a demosaic that copies each sample to the three
    channels and refuses an empty frame, and an encoder that lists the
    samples. *)
Definition cvt_replicate (f : frame) (c : ColorConversionCode) : outcome (image Z) :=
  match f with
  | [] => Raised (CvError "empty input")
  | _ => Returned (map (map (λ x, Px x x x)) f)
  end.

Definition enc_ravel (img : image Z) : list Z := ravel img.

(** A directory with one good pair, a label without image array, a label
    whose raw file is missing, and a label that asks for more bytes than
    the raw file holds. *)
Definition sol_world : world :=
  world_of [("sol/a.xml", label_file (sample_label "a.img" "2" "2" "3"));
            ("sol/a.img", raw_file [9; 9; 10; 20; 30; 40; 50; 60; 7]);
            ("sol/b.xml", label_file (file_area [file_ref "b.img"]));
            ("sol/c.xml", label_file (sample_label "c.img" "0" "2" "3"));
            ("sol/d.xml", label_file (sample_label "a.img" "5" "2" "3"))].

Definition img_clamped : image Z :=
  [[Px 200 200 0; Px 200 200 0]; [Px 200 200 0; Px 200 200 4]].
Definition img_full_range : image Z := [[Px 0 0 100; Px 200 255 255]].

(* ********************************************************************* *)
(** * Properties *)
(* ********************************************************************* *)

(* ===================================================================== *)
(** ** Demosaic pattern mapping *)
(* ===================================================================== *)

Lemma mod2_cases (z : Z) : z mod 2 = 0 ∨ z mod 2 = 1.
Proof. pose proof (Z.mod_pos_bound z 2). lia. Qed.

Lemma succ_mod2 (z : Z) : (z + 1) mod 2 = 1 - z mod 2.
Proof.
  rewrite Z.add_mod by lia.
  destruct (mod2_cases z) as [-> | ->]; reflexivity.
Qed.

(** A canonical token and the code chosen for it describe the same
    mosaic, filter by filter. *)
Lemma cfa_agree (t : string) :
  t ∈ canonical_tokens →
  ∀ row col, cfa_top_left t row col = Some (cfa_opencv (select_code t) row col).
Proof.
  intros Ht row col.
  unfold cfa_top_left, cfa_opencv.
  rewrite !succ_mod2.
  unfold canonical_tokens in Ht.
  repeat (apply elem_of_cons in Ht as [-> | Ht]);
    [ .. | by apply elem_of_nil in Ht ];
    destruct (mod2_cases row) as [-> | ->], (mod2_cases col) as [-> | ->];
    vm_compute; reflexivity.
Qed.

(** C1.  The four canonical tokens RGGB, GRBG, GBRG, BGGR select the
    codes BayerBG, BayerGB, BayerGR, BayerRG; the four codes are pairwise
    distinct, as constants and as OpenCV integers; each code names, in
    OpenCV's convention shifted by one row and one column, exactly the
    mosaic its token names from the top-left corner; and [debayer] hands
    that code to [cv2.cvtColor]. *)
Theorem pattern_map_distinct :
  (select_code "RGGB" = COLOR_BayerBG2BGR_VNG
   ∧ select_code "GRBG" = COLOR_BayerGB2BGR_VNG
   ∧ select_code "GBRG" = COLOR_BayerGR2BGR_VNG
   ∧ select_code "BGGR" = COLOR_BayerRG2BGR_VNG)
  ∧ NoDup (select_code <$> canonical_tokens)
  ∧ NoDup (code_value ∘ select_code <$> canonical_tokens)
  ∧ Forall (λ t, ∀ row col,
              cfa_top_left t row col = Some (cfa_opencv (select_code t) row col))
           canonical_tokens
  ∧ (∀ cvtColor bayer_img t w,
       debayer cvtColor bayer_img t w = (cvtColor bayer_img (select_code t), w)).
Proof.
  split; [ by vm_compute | ].
  split; [ by apply (bool_decide_unpack _) | ].
  split; [ by apply (bool_decide_unpack _) | ].
  split; [ | reflexivity ].
  apply Forall_forall. intros t Ht. by apply cfa_agree.
Qed.

(* ===================================================================== *)
(** ** Raw frame extraction *)
(* ===================================================================== *)

Section Chunks.
Implicit Types (buf : list Z) (rows cols : nat).




End Chunks.



(* ===================================================================== *)
(** ** Planes of an image *)
(* ===================================================================== *)

Section Planes.
Context {A B : Type}.
Implicit Types (img : image A) (c : channel).

Lemma concat_imap (g : pixel A → pixel B) img :
  concat (map (map g) img) = g <$> concat img.
Proof. symmetry. apply concat_map. Qed.

Lemma plane_imap (f : A → B) c img : plane c (imap f img) = f <$> plane c img.
Proof.
  unfold plane, imap. rewrite concat_imap, <- !list_fmap_compose.
  apply list_fmap_ext. intros _ p _. by destruct c.
Qed.

Lemma ravel_imap (f : A → B) img : ravel (imap f img) = f <$> ravel img.
Proof.
  unfold ravel, imap. rewrite concat_imap.
  induction (concat img) as [| p l IH]; [ done | ].
  cbn. do 3 f_equal. exact IH.
Qed.

Lemma plane_subseteq_ravel c img : plane c img ⊆ ravel img.
Proof.
  unfold plane, ravel. intros x Hx.
  apply list_elem_of_fmap in Hx as (p & -> & Hp).
  apply list_elem_of_bind. exists p. split; [ | done ].
  destruct c; simpl; rewrite !elem_of_cons; auto.
Qed.
End Planes.

Section OnPlane.
Context {A : Type}.
Implicit Types (img : image A) (c : channel).

Lemma concat_on_plane c (f : A → A) img :
  concat (on_plane c f img) = upd c f <$> concat img.
Proof. apply concat_imap. Qed.


Lemma plane_on_plane_other c c' (f : A → A) img :
  c ≠ c' → plane c' (on_plane c f img) = plane c' img.
Proof.
  intros Hc. unfold plane. rewrite concat_on_plane, <- !list_fmap_compose.
  apply list_fmap_ext. intros _ p _. by destruct c, c'.
Qed.
End OnPlane.

(** *** Sums and means in exact arithmetic *)
Section Exact.
Open Scope Q_scope.








End Exact.

(** *** Clipping and conversion to [uint8] *)
Section ExactClip.
Open Scope Q_scope.

Lemma Qle_bool_false (x y : Q) : Qle_bool x y = false ↔ y < x.
Proof.
  rewrite <- not_true_iff_false, Qle_bool_iff. split; [ apply Qnot_le_lt | apply Qlt_not_le ].
Qed.

Lemma Qfloor_nonneg (x : Q) : 0 <= x → (0 ≤ Qfloor x)%Z.
Proof. intros Hx. change 0%Z with (Qfloor 0). by apply Qfloor_resp_le. Qed.

Lemma Qfloor_neg (x : Q) : x < 0 → (Qfloor x < 0)%Z.
Proof.
  intros Hx. pose proof (Qfloor_le x) as Hle.
  destruct (Z_lt_le_dec (Qfloor x) 0) as [| Hge]; [ done | ].
  assert (0 <= inject_Z (Qfloor x)) by (change 0 with (inject_Z 0); by rewrite <- Zle_Qle).
  lra.
Qed.

Lemma Qfloor_le_255 (x : Q) : x <= 255 → (Qfloor x ≤ 255)%Z.
Proof. intros Hx. change 255%Z with (Qfloor 255). by apply Qfloor_resp_le. Qed.

Lemma Qfloor_gt_255 (x : Q) : 255 < x → (255 ≤ Qfloor x)%Z.
Proof. intros Hx. change 255%Z with (Qfloor 255). apply Qfloor_resp_le. lra. Qed.

(** Clipping followed by the conversion to [uint8], in closed form. *)
Lemma clip_uint8_exact (x : Q) :
  astype_uint8 (clip x) = Z.min 255 (Z.max 0 (Qfloor x)).
Proof.
  unfold astype_uint8, clip, fmin, fmax. simpl.
  change (inject_Z 0) with 0. change (inject_Z 255) with 255.
  destruct (Qle_bool 0 x) eqn:E0; simpl.
  - apply Qle_bool_iff in E0.
    destruct (Qle_bool x 255) eqn:E1; simpl.
    + apply Qle_bool_iff in E1.
      pose proof (Qfloor_nonneg x E0). pose proof (Qfloor_le_255 x E1).
      unfold Qtrunc. rewrite (proj2 (Qle_bool_iff 0 x) E0).
      rewrite Z.mod_small by lia. lia.
    + apply Qle_bool_false in E1.
      pose proof (Qfloor_gt_255 x E1).
      change (Qtrunc 255 `mod` 256)%Z with 255%Z. lia.
  - apply Qle_bool_false in E0.
    pose proof (Qfloor_neg x E0).
    change (Qtrunc 0 `mod` 256)%Z with 0%Z. lia.
Qed.




End ExactClip.

Section ExactMeans.
Open Scope Q_scope.




End ExactMeans.

(* ===================================================================== *)
(** ** Gray-world white balance *)
(* ===================================================================== *)

Section WhiteBalance.
Open Scope Q_scope.





End WhiteBalance.

Section WhiteBalanceMain.
Open Scope Q_scope.

End WhiteBalanceMain.



(** The same on a clipped sample: one red sample of 4 among zeros, green
    at 200 everywhere.  The red sample is scaled to 800 and clipped to
    255: the red mean of the output is 63.75, the green mean 200. *)
Lemma white_balance_clipping_breaks_means :
  let out := white_balance (N := Q_Num) img_clamped in
  (out = [[Px 200 200 0; Px 200 200 0]; [Px 200 200 0; Px 200 200 255]]%Z
   ∧ white_balance (N := binary32) img_clamped = out
   ∧ mean (plane ch2 (white_balance_scaled (N := Q_Num) img_clamped)) == 200
   ∧ mean (inject_Z <$> plane ch2 out) == 255 # 4
   ∧ mean (inject_Z <$> plane ch1 out) == 200)%Q.
Proof. repeat split; reflexivity. Qed.

(** The conversion to [float32], the clipping and the conversion back
    give every 8-bit sample back: the green plane is untouched under
    [binary32] as well. *)
Lemma binary32_u8_round_trip (x : Z) :
  u8 x →
  astype_uint8 (N := binary32) (clip (N := binary32) (of_int (Num := binary32) x)) = x.
Proof.
  intros [Hx0 Hx1].
  assert (Hall : Forall (λ z, astype_uint8 (N := binary32)
                                (clip (N := binary32) (of_int (Num := binary32) z)) = z)
                        (seqZ 0 256)).
  { apply (bool_decide_unpack _). vm_compute. reflexivity. }
  apply (proj1 (Forall_forall _ _) Hall), elem_of_seqZ. lia.
Qed.

(** *** What holds in any arithmetic *)
Section AnyArithmetic.
Context {F : Type} {N : Num F}.

Lemma astype_uint8_u8 (x : F) : u8 (astype_uint8 x).
Proof. unfold astype_uint8, u8. pose proof (Z.mod_pos_bound (trunc x) 256). lia. Qed.

Lemma clip_uint8_range (img : image F) : Forall u8 (ravel (clip_uint8 img)).
Proof.
  unfold clip_uint8. rewrite ravel_imap.
  apply Forall_fmap, Forall_forall. intros x _. apply astype_uint8_u8.
Qed.

Lemma white_balance_scaled_green (img : image Z) :
  plane ch1 (white_balance_scaled img) = of_int <$> plane ch1 img.
Proof.
  unfold white_balance_scaled.
  repeat match goal with |- context [ if ?b then _ else _ ] => destruct b end;
    rewrite ?plane_on_plane_other by done; apply plane_imap.
Qed.

(** The green plane survives the stage as soon as the conversion to the
    floating-point format and back is the identity on 8-bit samples. *)
Lemma white_balance_green (img : image Z) :
  (∀ x, u8 x → astype_uint8 (clip (of_int x)) = x) →
  Forall u8 (ravel img) →
  plane ch1 (white_balance img) = plane ch1 img.
Proof.
  intros Hround Hu8. unfold white_balance, clip_uint8.
  rewrite plane_imap, white_balance_scaled_green, <- list_fmap_compose.
  rewrite <- (list_fmap_id (plane ch1 img)) at 2.
  apply Forall_fmap_ext_1, Forall_forall. intros z Hz. simpl.
  apply Hround.
  eapply (proj1 (Forall_forall _ _) Hu8), plane_subseteq_ravel, Hz.
Qed.
End AnyArithmetic.

(** Under [binary32]: green untouched, output in range. *)
Lemma white_balance_binary32 (img : image Z) :
  Forall u8 (ravel img) →
  plane ch1 (white_balance (N := binary32) img) = plane ch1 img
  ∧ Forall u8 (ravel (white_balance (N := binary32) img)).
Proof.
  intros Hu8. split.
  - apply white_balance_green; [ apply binary32_u8_round_trip | exact Hu8 ].
  - apply clip_uint8_range.
Qed.

(* ===================================================================== *)
(** ** Colour correction *)
(* ===================================================================== *)

Section ColorCorrect.
Context {F : Type} {N : Num F}.

End ColorCorrect.


(** A run under [binary32] and under exact arithmetic. *)
Example color_correct_replayed :
  color_correct (N := binary32) [[Px 100 100 100; Px 200 17 240]]
  = [[Px 85 100 110; Px 170 17 255]]
  ∧ color_correct (N := Q_Num) [[Px 100 100 100; Px 200 17 240]]
    = [[Px 85 100 110; Px 170 17 255]].
Proof. split; vm_compute; reflexivity. Qed.

(* ===================================================================== *)
(** ** Contrast stretch *)
(* ===================================================================== *)

Section SortedLists.
Implicit Types (a : list Z).





End SortedLists.

Section Interpolation.
Open Scope Q_scope.


End Interpolation.

Section InterpolationOrder.
Open Scope Q_scope.
Implicit Types (a : list Z) (v : Q).







End InterpolationOrder.

Section ImapId.
Context {A : Type}.

Lemma imap_id_on (f : A → A) (img : image A) :
  Forall (λ x, f x = x) (ravel img) → imap f img = img.
Proof.
  unfold ravel, imap. intros Hall.
  rewrite Forall_bind in Hall.
  rewrite <- (map_id img) at 2. apply map_ext_Forall.
  induction img as [| row img IH]; [ constructor | ].
  simpl in Hall. apply Forall_app in Hall as [Hrow Himg].
  constructor; [ | by apply IH ].
  rewrite <- (map_id row) at 2. apply map_ext_Forall.
  eapply Forall_impl; [ exact Hrow | ].
  intros [b g r] Hp. simpl in Hp. unfold pmap. simpl.
  inversion Hp as [| ? ? Hb Hp1]; subst. inversion Hp1 as [| ? ? Hg Hp2]; subst.
  inversion Hp2 as [| ? ? Hr _]; subst. by rewrite Hb, Hg, Hr.
Qed.
End ImapId.

Section Stretch.
Open Scope Q_scope.
Implicit Types (img : image Z).




End Stretch.

Section StretchMain.
Open Scope Q_scope.
Implicit Types (img : image Z).

Lemma remap_exact (imin imax : Q) (x : Z) :
  remap imin imax x
  = Z.min 255 (Z.max 0 (Qfloor ((inject_Z x - imin) * 255 / (imax - imin)))).
Proof. unfold remap. apply clip_uint8_exact. Qed.




Lemma stretch_regular img :
  ¬ high img == low img →
  stretch_contrast img = imap (remap (low img) (high img)) img.
Proof.
  intros Hne. unfold stretch_contrast. fold (low img). fold (high img).
  cbn [eqb sub of_int Q_Num].
  destruct (Qeq_bool (high img - low img) (inject_Z 0)) eqn:E; [ | done ].
  exfalso. apply Hne. apply Qeq_bool_iff in E. change (inject_Z 0) with 0 in E. lra.
Qed.





(** C9.  For an 8-bit image whose 0.5th and 99.5th percentiles are
    already 0 and 255, the stretch returns every sample unchanged, and
    so applying it again to its own output changes nothing. *)
Theorem stretch_contrast_fixed (img : image Z) :
  Forall u8 (ravel img) →
  percentile (N := Q_Num) img (5 # 10) == 0 →
  percentile (N := Q_Num) img (995 # 10) == 255 →
  stretch_contrast (N := Q_Num) img = img
  ∧ stretch_contrast (N := Q_Num) (stretch_contrast (N := Q_Num) img)
    = stretch_contrast (N := Q_Num) img.
Proof.
  intros Hu8 Hlow Hhigh.
  assert (Hid : stretch_contrast img = img); [ | by rewrite !Hid ].
  rewrite stretch_regular.
  - apply imap_id_on. eapply Forall_impl; [ exact Hu8 | ].
    intros x [Hx0 Hx1]. simpl. rewrite remap_exact.
    unfold low, high.
    assert (Ht : (inject_Z x - percentile img (5 # 10)) * 255
                 / (percentile img (995 # 10) - percentile img (5 # 10)) == inject_Z x).
    { rewrite Hlow, Hhigh. field. }
    rewrite (Qfloor_comp _ _ Ht), Qfloor_Z. lia.
  - unfold low, high. rewrite Hlow, Hhigh. discriminate.
Qed.
End StretchMain.

Lemma stretch_contrast_fixed_witness :
  stretch_contrast (N := Q_Num) img_full_range = img_full_range
  ∧ stretch_contrast (N := Q_Num) (stretch_contrast (N := Q_Num) img_full_range)
    = stretch_contrast (N := Q_Num) img_full_range.
Proof.
  apply (stretch_contrast_fixed img_full_range).
  - repeat constructor; vm_compute; discriminate.
  - vm_compute. reflexivity.
  - vm_compute. reflexivity.
Defined.

(** Under [binary64] the quotient [x * 255.0 / 255.0] is exact for every
    8-bit sample: with the percentiles at 0 and 255 the remapping is the
    identity there too. *)
Lemma binary64_remap_identity (x : Z) :
  u8 x →
  remap (N := binary64) (of_int (Num := binary64) 0) (of_int (Num := binary64) 255) x = x.
Proof.
  intros [Hx0 Hx1].
  assert (Hall : Forall (λ z, remap (N := binary64) (of_int (Num := binary64) 0)
                                    (of_int (Num := binary64) 255) z = z)
                        (seqZ 0 256)).
  { apply (bool_decide_unpack _). vm_compute. reflexivity. }
  apply (proj1 (Forall_forall _ _) Hall), elem_of_seqZ. lia.
Qed.

(** Under [binary64]: with the two percentiles at 0 and 255 the stretch
    gives the image back. *)
Lemma stretch_contrast_fixed_binary64 (img : image Z) :
  Forall u8 (ravel img) →
  percentile (N := binary64) img (5 # 10) = of_int (Num := binary64) 0 →
  percentile (N := binary64) img (995 # 10) = of_int (Num := binary64) 255 →
  stretch_contrast (N := binary64) img = img.
Proof.
  intros Hu8 Hlow Hhigh. unfold stretch_contrast. rewrite Hlow, Hhigh.
  change (eqb (Num := binary64) (sub (of_int 255) (of_int 0)) (of_int 0)) with false.
  cbv iota. apply imap_id_on.
  eapply Forall_impl; [ exact Hu8 | ]. intros x Hx. by apply binary64_remap_identity.
Qed.

(** Runs of the stretch under [binary64]: the full-range image and a
    flat image come back unchanged, as in exact arithmetic. *)
Example stretch_contrast_replayed :
  stretch_contrast (N := binary64) img_full_range = img_full_range
  ∧ stretch_contrast (N := binary64) [[Px 7 7 7; Px 7 7 7]] = [[Px 7 7 7; Px 7 7 7]]
  ∧ stretch_contrast (N := binary64) [] = [].
Proof. repeat split; vm_compute; reflexivity. Qed.

(** Where the two arithmetics part: on the one-pixel image (0, 7, 255)
    the percentiles are 0.07 and 252.52 and the sample 7 is remapped to
    exactly 7; under [binary64] the quotient falls just below 7 and the
    truncation gives 6.  The results above are statements of exact
    arithmetic. *)
Remark stretch_contrast_rounding :
  stretch_contrast (N := Q_Num) [[Px 0 7 255]] = [[Px 0 7 255]]
  ∧ stretch_contrast (N := binary64) [[Px 0 7 255]] = [[Px 0 6 255]].
Proof. split; vm_compute; reflexivity. Qed.

(* ===================================================================== *)
(** ** Label reader *)
(* ===================================================================== *)







(* ===================================================================== *)
(** ** Runs: what is kept, what is reached *)
(* ===================================================================== *)

Section KeepsFiles.
Context {A B : Type}.




End KeepsFiles.


Lemma keeps_isfile (p : string) : keeps_files (os_path_isfile p).
Proof. intros w r w' [= <- <-]. reflexivity. Qed.





Section Post.
Context {A B : Type}.



End Post.






Section Process.
Variable cvtColor : frame → ColorConversionCode → outcome (image Z).
Variable imencode : image Z → list Z.
Context {F32 F64 : Type} (N32 : Num F32) (N64 : Num F64).




End Process.

Lemma select_code_unknown (pattern : string) :
  lower pattern ∉ canonical → select_code pattern = COLOR_BayerGB2BGR_VNG.
Proof.
  intros Hnot. unfold select_code, patterns, canonical in *.
  rewrite !not_elem_of_cons in Hnot. destruct Hnot as (H1 & H2 & H3 & H4 & _).
  by rewrite !lookup_insert_ne, lookup_empty.
Qed.

(* ===================================================================== *)
(** ** Unknown pattern tokens *)
(* ===================================================================== *)

Section Debayer.
Variable cvtColor : frame → ColorConversionCode → outcome (image Z).

(** C7 (amended).  For a token that is none of the four canonical ones
    once lower-cased, [debayer] does not fail on account of the token:
    it runs [cv2.cvtColor] with the code of GRBG, exactly as it does
    for "grbg", and leaves the world as it was, so that nothing is
    printed, in particular no warning; when that conversion returns,
    [debayer] returns its image, which has the shape of the frame
    whenever [cv2.cvtColor] keeps shapes. *)
Theorem debayer_unknown_pattern (bayer_img : frame) (pattern : string) (w : world) :
  lower pattern ∉ canonical →
  (∀ f c img, cvtColor f c = Returned img → shape img = shape f) →
  debayer cvtColor bayer_img pattern w = (cvtColor bayer_img COLOR_BayerGB2BGR_VNG, w)
  ∧ debayer cvtColor bayer_img pattern w = debayer cvtColor bayer_img "grbg" w
  ∧ ∀ img, cvtColor bayer_img COLOR_BayerGB2BGR_VNG = Returned img →
           debayer cvtColor bayer_img pattern w = (Returned img, w)
           ∧ shape img = shape bayer_img.
Proof.
  intros Hnot Hshape.
  assert (Hrun : debayer cvtColor bayer_img pattern w
                 = (cvtColor bayer_img COLOR_BayerGB2BGR_VNG, w)).
  { unfold debayer, lift. by rewrite select_code_unknown. }
  split; [ exact Hrun | ].
  split; [ by rewrite Hrun | ].
  intros img Himg. split; [ by rewrite Hrun, Himg | by eapply Hshape ].
Qed.
End Debayer.

Lemma shape_replicate (l : frame) :
  shape (map (map (λ x, Px x x x)) l) = shape l.
Proof.
  unfold shape. f_equal; [ apply length_map | ].
  induction l as [| r l IH]; [ done | ].
  cbn. f_equal; [ apply length_map | exact IH ].
Qed.

Lemma cvt_replicate_shape (f : frame) (c : ColorConversionCode) (img : image Z) :
  cvt_replicate f c = Returned img → shape img = shape f.
Proof.
  unfold cvt_replicate. destruct f as [| row f]; [ done | ].
  intros [= <-]. apply (shape_replicate (row :: f)).
Qed.

Lemma debayer_unknown_pattern_witness :
  debayer cvt_replicate [[10; 20; 30]; [40; 50; 60]] "RGBG" (World ∅ ∅ [])
  = (Returned [[Px 10 10 10; Px 20 20 20; Px 30 30 30];
               [Px 40 40 40; Px 50 50 50; Px 60 60 60]], World ∅ ∅ []).
Proof.
  refine (proj1 (proj2 (proj2
    (debayer_unknown_pattern cvt_replicate [[10; 20; 30]; [40; 50; 60]] "RGBG"
       (World ∅ ∅ []) _ cvt_replicate_shape)) _ eq_refl)).
  unfold canonical. rewrite !not_elem_of_cons. repeat split; try discriminate.
  apply not_elem_of_nil.
Defined.

(** The claim of C7 on a run: with the unknown token "xyzw" the image is
    processed and saved, and the lines printed are the six ordinary ones;
    none of them is a warning, and [debayer] itself prints nothing. *)
Lemma debayer_fallback_is_silent :
  let run := process_pds_image cvt_replicate enc_ravel binary32 binary64
               "sol/a.xml" None (Some "xyzw") sol_world in
  fst run = Returned (Some "sol/output_png/a_RGB.png")
  ∧ stdout (snd run)
    = [line_xml_parsed 2 3 2; line_processing "a.img"; line_offset 2; line_size 3 2;
       line_bayer "xyzw"; line_saved "sol/output_png/a_RGB.png"]
  ∧ filter (λ l, is_warning l = true) (stdout (snd run)) = []
  ∧ stdout (snd (debayer cvt_replicate [[10; 20; 30]; [40; 50; 60]] "xyzw" sol_world))
    = stdout sol_world.
Proof. repeat split; vm_compute; reflexivity. Qed.

(* ===================================================================== *)
(** ** Entry point and batch loop *)
(* ===================================================================== *)

Section EntryPoint.
Variable cvtColor : frame → ColorConversionCode → outcome (image Z).
Variable imencode : image Z → list Z.
Context {F32 F64 : Type} (N32 : Num F32) (N64 : Num F64).


(** C10.  When the label is read and the raw file its file-name field
    refers to is not a file of the label's directory, the entry point
    returns [None] without raising; it prints the parsed geometry and
    the warning, and leaves files and directories as they were. *)
Theorem missing_raw_file_returns_None
        (xml_path : string) (output_dir bayer_override : option string)
        (w : world) (f : file) (root : Element) (i : info) (name : string) :
  files w !! xml_path = Some f → f_xml f = Some root →
  parse_root xml_path root = Returned i → file_name i = Some name →
  files w !! os_path_join (os_path_dirname xml_path) name = None →
  process_pds_image cvtColor imencode N32 N64 xml_path output_dir bayer_override w
  = (Returned None,
     World (files w) (dirs w)
           (stdout w ++ [line_xml_parsed (offset i) (samples i) (lines i)]
                    ++ [line_img_not_found (os_path_join (os_path_dirname xml_path) name)])).
Proof.
  intros Hf Hxml Hparse Hname Hmissing.
  unfold process_pds_image, parse_pds4_label, bind, ET_parse_getroot, lift, print, ret.
  rewrite Hf, Hxml, Hparse. simpl. rewrite Hname. simpl.
  unfold os_path_isfile. simpl. rewrite Hmissing.
  rewrite bool_decide_eq_false_2 by (intros [? ?]; done).
  simpl. by rewrite <- app_assoc.
Qed.
End EntryPoint.


Lemma missing_raw_file_witness :
  process_pds_image cvt_replicate enc_ravel binary32 binary64 "sol/c.xml" None None sol_world
  = (Returned None,
     World (files sol_world) (dirs sol_world)
           ([] ++ [line_xml_parsed 0 3 2] ++ [line_img_not_found "sol/c.img"])).
Proof.
  exact (missing_raw_file_returns_None cvt_replicate enc_ravel binary32 binary64
           "sol/c.xml" None None sol_world
           (label_file (sample_label "c.img" "0" "2" "3"))
           (sample_label "c.img" "0" "2" "3")
           (Info (Some "c.img") 0 2 3 8 "grbg" None) "c.img"
           eq_refl eq_refl eq_refl eq_refl eq_refl).
Defined.
